(** * PS credentials: a shallow embedding of [Part 1/credential.py]

    The module is dynamically typed Python over the [petrelic] pairing
    library.  Keys are flat Python lists mixing scalars and elements of
    two groups, so the embedding works over a small universe of Python
    values with run-time checked operations, an exception result and an
    explicit source of random scalars. *)

From Stdlib Require Import ZArith List Bool Lia QArith.
Import ListNotations.

Local Open Scope Z_scope.

Set Warnings "-register-all".

(** ** The pairing library

    [petrelic.multiplicative.pairing] is not part of the module: it is
    taken as a parameter.  Only the operations the module calls appear.
    What the library answers when a Python [int] stands on the left of
    [*] with a group element on the right (which is what [math.prod]
    does first, its start value being the int 1) is left open:
    [None] stands for [NotImplemented], hence a [TypeError]. *)

Class PairingLib : Type := {
  G1 : Type;
  G2 : Type;
  GT : Type;
  order : Z;
  g1_generator : G1;
  g2_generator : G2;
  g1_neutral : G1;
  g1_mul : G1 -> G1 -> G1;
  g1_div : G1 -> G1 -> G1;
  g1_pow : G1 -> Z -> G1;
  g1_eqb : G1 -> G1 -> bool;
  g2_mul : G2 -> G2 -> G2;
  g2_div : G2 -> G2 -> G2;
  g2_pow : G2 -> Z -> G2;
  g2_eqb : G2 -> G2 -> bool;
  gt_mul : GT -> GT -> GT;
  gt_div : GT -> GT -> GT;
  gt_pow : GT -> Z -> GT;
  gt_eqb : GT -> GT -> bool;
  e_pair : G1 -> G2 -> GT;
  int_rmul_g1 : Z -> G1 -> option G1;
  int_rmul_g2 : Z -> G2 -> option G2;
  int_rmul_gt : Z -> GT -> option GT
}.

(** ** Exceptions and results *)

Inductive exn : Type :=
| TypeError
| IndexError
| AttributeError
| NotImplementedError.

Inductive result (A : Type) : Type :=
| Ok (a : A)
| Raise (e : exn).

Arguments Ok {A} a.
Arguments Raise {A} e.

Definition rbind {A B : Type} (r : result A) (k : A -> result B) : result B :=
  match r with
  | Ok a => k a
  | Raise e => Raise e
  end.

Notation "'try!' x <- e 'in' k" := (rbind e (fun x => k))
  (at level 10, x name, e at level 100, k at level 200).

Fixpoint mapM {A B : Type} (f : A -> result B) (l : list A) : result (list B) :=
  match l with
  | [] => Ok []
  | a :: l' =>
      try! b <- f a in
      try! bs <- mapM f l' in
      Ok (b :: bs)
  end.

(** ** Random scalars

    [G1.order().random()] is the only source of randomness.  The scalars
    the generator will hand out are an explicit stream; a cursor says how
    many have been drawn. *)

Record rng : Type := mkRng { stream : nat -> Z; pos : nat }.

Definition advance (r : rng) : rng := mkRng (stream r) (S (pos r)).

Definition M (A : Type) : Type := rng -> result (A * rng).

Definition ret {A : Type} (a : A) : M A := fun r => Ok (a, r).

Definition bind {A B : Type} (m : M A) (k : A -> M B) : M B :=
  fun r =>
    match m r with
    | Ok (a, r') => k a r'
    | Raise e => Raise e
    end.

Definition lift {A : Type} (x : result A) : M A :=
  fun r =>
    match x with
    | Ok a => Ok (a, r)
    | Raise e => Raise e
    end.

Notation "x <- e ;; k" := (bind e (fun x => k))
  (at level 61, e at next level, right associativity).

Section Credential.

Context {lib : PairingLib}.

(** The scalar drawn at the cursor, reduced into the range of the order. *)
Definition peek (r : rng) : Z := stream r (pos r) mod order.

Definition random : M Z := fun r => Ok (peek r, advance r).

Fixpoint random_list (n : nat) : M (list Z) :=
  match n with
  | O => ret []
  | S n' =>
      k <- random ;;
      ks <- random_list n' ;;
      ret (k :: ks)
  end.

(** ** Python values

    The values the module's functions meet: [None], ints, the float that
    [/] produces, [Bn] scalars, group elements, lists and tuples. *)

Inductive value : Type :=
| VNone
| VInt (n : Z)
| VFloat (q : Q)
| VBn (k : Z)
| VG1 (a : G1)
| VG2 (b : G2)
| VGT (c : GT)
| VList (l : list value)
| VTuple (l : list value).

(** [len(v)] *)
Definition py_len (v : value) : result Z :=
  match v with
  | VList l | VTuple l => Ok (Z.of_nat (length l))
  | _ => Raise TypeError
  end.

(** Iteration, as [zip] and comprehensions do it. *)
Definition py_iter (v : value) : result (list value) :=
  match v with
  | VList l | VTuple l => Ok l
  | _ => Raise TypeError
  end.

(** [l[i]] on a sequence: negative indices count from the end, an index
    outside the sequence raises [IndexError]. *)
Definition seq_item (l : list value) (i : Z) : result value :=
  let n := Z.of_nat (length l) in
  let j := if i <? 0 then i + n else i in
  if (j <? 0) || (n <=? j) then Raise IndexError
  else
    match nth_error l (Z.to_nat j) with
    | Some v => Ok v
    | None => Raise IndexError
    end.

(** [v[i]] *)
Definition py_getitem (v i : value) : result value :=
  match v with
  | VList l | VTuple l =>
      match i with
      | VInt k => seq_item l k
      | _ => Raise TypeError
      end
  | _ => Raise TypeError
  end.

(** [l[i:]] on a sequence: the start is clamped into the sequence. *)
Definition seq_from (l : list value) (i : Z) : list value :=
  let n := Z.of_nat (length l) in
  let j := if i <? 0 then Z.max 0 (i + n) else Z.min i n in
  skipn (Z.to_nat j) l.

(** [v[i:]]: a slice bound that is not an int raises [TypeError]. *)
Definition py_slice_from (v i : value) : result value :=
  match v with
  | VList l =>
      match i with
      | VInt k => Ok (VList (seq_from l k))
      | _ => Raise TypeError
      end
  | VTuple l =>
      match i with
      | VInt k => Ok (VTuple (seq_from l k))
      | _ => Raise TypeError
      end
  | _ => Raise TypeError
  end.

(** [a + b].  A [Bn] is an unbounded integer (nothing is reduced modulo
    the order before it becomes an exponent) and takes an int on either
    side. *)
Definition py_add (a b : value) : result value :=
  match a, b with
  | VInt x, VInt y => Ok (VInt (x + y))
  | VInt x, VBn y | VBn x, VInt y | VBn x, VBn y => Ok (VBn (x + y))
  | VFloat x, VFloat y => Ok (VFloat (x + y)%Q)
  | VFloat x, VInt y => Ok (VFloat (x + inject_Z y)%Q)
  | VInt x, VFloat y => Ok (VFloat (inject_Z x + y)%Q)
  | VList x, VList y => Ok (VList (x ++ y))
  | VTuple x, VTuple y => Ok (VTuple (x ++ y))
  | _, _ => Raise TypeError
  end.

(** [a - b] *)
Definition py_sub (a b : value) : result value :=
  match a, b with
  | VInt x, VInt y => Ok (VInt (x - y))
  | VInt x, VBn y | VBn x, VInt y | VBn x, VBn y => Ok (VBn (x - y))
  | VFloat x, VFloat y => Ok (VFloat (x - y)%Q)
  | VFloat x, VInt y => Ok (VFloat (x - inject_Z y)%Q)
  | VInt x, VFloat y => Ok (VFloat (inject_Z x - y)%Q)
  | _, _ => Raise TypeError
  end.

(** [a / b] by the int 2, the only divisor the module uses: true
    division, so the quotient of two ints is a float. *)
Definition py_truediv_2 (a : value) : result value :=
  match a with
  | VInt x => Ok (VFloat (x # 2))
  | VFloat x => Ok (VFloat (x / 2)%Q)
  | _ => Raise TypeError
  end.

(** [l * n] and [n * l]: a sequence repeated, empty when [n <= 0]. *)
Definition seq_repeat (l : list value) (n : Z) : list value :=
  concat (repeat l (Z.to_nat n)).

Definition opt_elem {A : Type} (inj : A -> value) (o : option A) : result value :=
  match o with
  | Some a => Ok (inj a)
  | None => Raise TypeError
  end.

(** [a * b] *)
Definition py_mul (a b : value) : result value :=
  match a, b with
  | VInt x, VInt y => Ok (VInt (x * y))
  | VInt x, VBn y | VBn x, VInt y | VBn x, VBn y => Ok (VBn (x * y))
  | VFloat x, VFloat y => Ok (VFloat (x * y)%Q)
  | VFloat x, VInt y => Ok (VFloat (x * inject_Z y)%Q)
  | VInt x, VFloat y => Ok (VFloat (inject_Z x * y)%Q)
  | VG1 x, VG1 y => Ok (VG1 (g1_mul x y))
  | VG2 x, VG2 y => Ok (VG2 (g2_mul x y))
  | VGT x, VGT y => Ok (VGT (gt_mul x y))
  | VInt n, VG1 y => opt_elem VG1 (int_rmul_g1 n y)
  | VInt n, VG2 y => opt_elem VG2 (int_rmul_g2 n y)
  | VInt n, VGT y => opt_elem VGT (int_rmul_gt n y)
  | VList l, VInt n | VInt n, VList l => Ok (VList (seq_repeat l n))
  | VTuple l, VInt n | VInt n, VTuple l => Ok (VTuple (seq_repeat l n))
  | _, _ => Raise TypeError
  end.

(** [a ** b] with a group element as base and an int or a [Bn] as
    exponent, which is every power the module takes on keys, signatures
    and credentials made of group elements.  A power with a number as
    base (Python's own [int ** int], petrelic's [Bn ** Bn]) is not
    modelled: the statements about the module keep to group-element
    bases, or do not depend on what a power answers. *)
Definition py_pow (a b : value) : result value :=
  match a, b with
  | VG1 x, VInt k | VG1 x, VBn k => Ok (VG1 (g1_pow x k))
  | VG2 x, VInt k | VG2 x, VBn k => Ok (VG2 (g2_pow x k))
  | VGT x, VInt k | VGT x, VBn k => Ok (VGT (gt_pow x k))
  | _, _ => Raise TypeError
  end.

(** [a != b] against an element of G1 *)
Definition py_ne_g1 (a : value) (n : G1) : bool :=
  match a with
  | VG1 x => negb (g1_eqb x n)
  | _ => true
  end.

(** [a == b] *)
Definition py_eq (a b : value) : bool :=
  match a, b with
  | VG1 x, VG1 y => g1_eqb x y
  | VG2 x, VG2 y => g2_eqb x y
  | VGT x, VGT y => gt_eqb x y
  | VInt x, VInt y | VInt x, VBn y | VBn x, VInt y | VBn x, VBn y => x =? y
  | VNone, VNone => true
  | _, _ => false
  end.

(** [a.pair(b)] *)
Definition py_pair (a b : value) : result value :=
  match a with
  | VG1 x =>
      match b with
      | VG2 y => Ok (VGT (e_pair x y))
      | _ => Raise TypeError
      end
  | _ => Raise AttributeError
  end.

(** The attribute lookup [a.div]: group elements have the method, and
    the quotient is modelled for an operand of the same group.  What
    the library hands back on any other operand is not modelled: the
    statements about the module keep to operands of the same group, or
    do not depend on what [div] answers. *)
Definition py_div_method (a : value) : result (value -> result value) :=
  match a with
  | VG1 x =>
      Ok (fun b => match b with VG1 y => Ok (VG1 (g1_div x y)) | _ => Raise TypeError end)
  | VG2 x =>
      Ok (fun b => match b with VG2 y => Ok (VG2 (g2_div x y)) | _ => Raise TypeError end)
  | VGT x =>
      Ok (fun b => match b with VGT y => Ok (VGT (gt_div x y)) | _ => Raise TypeError end)
  | _ => Raise AttributeError
  end.

(** [sum(l)]: starts from the int 0. *)
Fixpoint sum_from (acc : value) (l : list value) : result value :=
  match l with
  | [] => Ok acc
  | v :: l' =>
      try! acc' <- py_add acc v in
      sum_from acc' l'
  end.

Definition py_sum (l : list value) : result value := sum_from (VInt 0) l.

(** [math.prod(l)] of a list: starts from the int 1. *)
Fixpoint prod_from (acc : value) (l : list value) : result value :=
  match l with
  | [] => Ok acc
  | v :: l' =>
      try! acc' <- py_mul acc v in
      prod_from acc' l'
  end.

Definition math_prod (l : list value) : result value := prod_from (VInt 1) l.

(** [math.prod(a ** b for a, b in z)] of a generator: each power is
    computed when the product asks for it. *)
Fixpoint prod_pow_from (acc : value) (z : list (value * value)) : result value :=
  match z with
  | [] => Ok acc
  | (a, b) :: z' =>
      try! p <- py_pow a b in
      try! acc' <- py_mul acc p in
      prod_pow_from acc' z'
  end.

Definition math_prod_pow (z : list (value * value)) : result value :=
  prod_pow_from (VInt 1) z.

(** [zip(a, b)] consumed at once *)
Definition py_zip (a b : value) : result (list (value * value)) :=
  try! la <- py_iter a in
  try! lb <- py_iter b in
  Ok (combine la lb).

(** ** Signature scheme *)

(** [generate_key(attributes)], lines 45-62 *)
Definition generate_key (attributes : value) : M value :=
  L <- lift (py_len attributes) ;;
  let g_1 := g1_generator in
  let g_2 := g2_generator in
  x <- random ;;
  let X_1 := g1_pow g_1 x in
  let X_2 := g2_pow g_2 x in
  y <- random_list (Z.to_nat L) ;;
  let Y_1 := map (fun i => g1_pow g_1 i) y in
  let Y_2 := map (fun i => g2_pow g_2 i) y in
  let pk := [VG1 g_1] ++ map VG1 Y_1 ++ [VG2 g_2] ++ [VG2 X_2] ++ map VG2 Y_2 in
  let sk := [VBn x] ++ [VG1 X_1] ++ map VBn y in
  ret (VTuple [VList sk; VList pk]).

(** [sign(sk, msgs)], lines 68-77 *)
Definition sign (sk msgs : value) : result value :=
  let h := VG1 g1_generator in
  try! x <- py_getitem sk (VInt 0) in
  try! ys <- py_slice_from sk (VInt 2) in
  try! z <- py_zip msgs ys in
  try! terms <- mapM (fun ab => py_mul (fst ab) (snd ab)) z in
  try! s <- py_sum terms in
  try! e <- py_add x s in
  try! p <- py_pow h e in
  Ok (VTuple [h; p]).

(** [verify(pk, signature, msgs)], lines 85-97 *)
Definition verify (pk signature msgs : value) : result bool :=
  try! L <- py_len msgs in
  try! s1 <- py_getitem signature (VInt 0) in
  try! s2 <- py_getitem signature (VInt 1) in
  try! ys <- py_slice_from pk (VInt (L + 3)) in
  try! z <- py_zip ys msgs in
  try! powers <- mapM (fun ab => py_pow (fst ab) (snd ab)) z in
  try! p <- math_prod powers in
  try! m <- py_getitem msgs (VInt (L + 2)) in
  try! e1 <- py_mul p m in
  try! e2 <- py_getitem pk (VInt (L + 1)) in
  if py_ne_g1 s1 g1_neutral then
    try! l <- py_pair s1 e1 in
    try! r <- py_pair s2 e2 in
    Ok (py_eq l r)
  else Ok false.

(** ** Issuance protocol *)

(** [create_issue_request(pk, user_attributes)], lines 108-128 *)
Definition create_issue_request (pk user_attributes : value) : M value :=
  L <- lift (try! n <- py_len pk in
             try! d <- py_sub (VInt n) (VInt 3) in
             py_truediv_2 d) ;;
  t <- random ;;
  lift (try! g <- py_getitem pk (VInt 0) in
        try! i <- py_add L (VInt 3) in
        try! y <- py_slice_from pk i in
        try! ua <- py_iter user_attributes in
        try! attributes <- mapM (fun x => py_getitem x (VInt 0)) ua in
        try! indices <- mapM (fun x => py_getitem x (VInt 1)) ua in
        try! y' <- mapM (fun index => py_getitem y index) indices in
        try! gt <- py_pow g (VBn t) in
        try! p <- math_prod_pow (combine y' attributes) in
        try! C <- py_mul gt p in
        Ok C).

(** [sign_issue_request(sk, pk, request, issuer_attributes)], lines 132-153 *)
Definition sign_issue_request (sk pk request issuer_attributes : value) : M value :=
  u <- random ;;
  lift (try! n <- py_len pk in
        try! d <- py_sub (VInt n) (VInt 3) in
        try! L <- py_truediv_2 d in
        try! i <- py_add L (VInt 3) in
        try! y <- py_slice_from pk i in
        try! ia <- py_iter issuer_attributes in
        try! attributes <- mapM (fun x => py_getitem x (VInt 0)) ia in
        try! indices <- mapM (fun x => py_getitem x (VInt 1)) ia in
        try! y' <- mapM (fun index => py_getitem y index) indices in
        try! g <- py_getitem pk (VInt 0) in
        try! s_1 <- py_pow g (VBn u) in
        try! X_1 <- py_getitem sk (VInt 1) in
        try! xc <- py_mul X_1 request in
        try! p <- math_prod_pow (combine y' attributes) in
        try! b <- py_mul xc p in
        try! s_2 <- py_pow b (VBn u) in
        Ok (VTuple [s_1; s_2])).

(** [obtain_credential(pk, response)], lines 157-166 *)
Definition obtain_credential (pk response : value) : M value :=
  t <- random ;;
  lift (try! s1 <- py_getitem response (VInt 0) in
        try! s2 <- py_getitem response (VInt 1) in
        try! div <- py_div_method s2 in
        try! b <- py_getitem response (VInt 0) in
        try! p <- py_pow b (VBn t) in
        try! q <- div p in
        Ok (VTuple [s1; q])).

(** The three issuance steps run one after the other, each on what the
    step before returned. *)
Definition issuance (sk pk user_attributes issuer_attributes : value) : M value :=
  request <- create_issue_request pk user_attributes ;;
  response <- sign_issue_request sk pk request issuer_attributes ;;
  obtain_credential pk response.

(** ** Showing protocol *)

(** The tuple bound to [s] at line 182:
    [(credential[0]**r, (credential[1]*(credential[0]**t) ** r))];
    [**] binds tighter than [*]. *)
Definition rerandomized (credential : value) (r t : Z) : result value :=
  try! c0 <- py_getitem credential (VInt 0) in
  try! h' <- py_pow c0 (VBn r) in
  try! c1 <- py_getitem credential (VInt 1) in
  try! c0' <- py_getitem credential (VInt 0) in
  try! ht <- py_pow c0' (VBn t) in
  try! htr <- py_pow ht (VBn r) in
  try! s' <- py_mul c1 htr in
  Ok (VTuple [h'; s']).

(** [create_disclosure_proof(pk, credential, hidden_attributes, message)],
    lines 173-184: the body ends after the assignment to [s], so the call
    evaluates to [None]. *)
Definition create_disclosure_proof
    (pk credential hidden_attributes message : value) : M value :=
  r <- random ;;
  t <- random ;;
  lift (try! s <- rerandomized credential r t in
        Ok VNone).

(** [verify_disclosure_proof(pk, disclosure_proof, message)], lines 187-196 *)
Definition verify_disclosure_proof (pk disclosure_proof message : value) : result bool :=
  Raise NotImplementedError.

(** ** What the statements below are written with *)

(** The [n] scalars the generator hands out from the cursor on, and the
    generator after them. *)
Fixpoint drawn (n : nat) (r : rng) : list Z :=
  match n with
  | O => []
  | S n' => peek r :: drawn n' (advance r)
  end.

Fixpoint skip (n : nat) (r : rng) : rng :=
  match n with
  | O => r
  | S n' => skip n' (advance r)
  end.

(** The lists of lines 59 and 60, for the scalars [x] and [y]. *)
Definition pk_of (x : Z) (y : list Z) : value :=
  VList ([VG1 g1_generator] ++ map VG1 (map (fun i => g1_pow g1_generator i) y)
         ++ [VG2 g2_generator] ++ [VG2 (g2_pow g2_generator x)]
         ++ map VG2 (map (fun i => g2_pow g2_generator i) y)).

Definition sk_of (x : Z) (y : list Z) : value :=
  VList ([VBn x] ++ [VG1 (g1_pow g1_generator x)] ++ map VBn y).

(** [sum([a*b for a,b in zip(m, y)])] on scalars *)
Definition weighted_sum (m y : list Z) : Z :=
  fold_left Z.add (map (fun ab => fst ab * snd ab) (combine m y)) 0.

(** A vector of scalar messages *)
Definition scalars (m : list Z) : value := VList (map VBn m).

(** An element of one of the three groups *)
Definition is_element (v : value) : bool :=
  match v with
  | VG1 _ | VG2 _ | VGT _ => true
  | _ => false
  end.

(** The call raised [TypeError] or [IndexError]. *)
Definition type_or_index {A : Type} (x : result A) : Prop :=
  x = Raise TypeError \/ x = Raise IndexError.

End Credential.

(** ** A pairing library to run the module on

    Elements of the three groups are written by their discrete logarithm
    to the base of the generator, modulo the order of BLS12-381 (the
    curve petrelic is built on): multiplication adds, exponentiation
    multiplies, the pairing multiplies.  An int on the left of [*] is not
    accepted. *)

Module Toy.

Definition q : Z :=
  52435875175126190479447740508185965837690552500527637822603658699938581184513.

Definition mul (a b : Z) : Z := (a + b) mod q.
Definition div (a b : Z) : Z := (a - b) mod q.
Definition pow (a k : Z) : Z := (a * k) mod q.
Definition pairing (a b : Z) : Z := (a * b) mod q.

Definition lib : PairingLib := {|
  G1 := Z; G2 := Z; GT := Z;
  order := q;
  g1_generator := 1; g2_generator := 1;
  g1_neutral := 0;
  g1_mul := mul; g1_div := div; g1_pow := pow; g1_eqb := Z.eqb;
  g2_mul := mul; g2_div := div; g2_pow := pow; g2_eqb := Z.eqb;
  gt_mul := mul; gt_div := div; gt_pow := pow; gt_eqb := Z.eqb;
  e_pair := pairing;
  int_rmul_g1 := fun _ _ => None;
  int_rmul_g2 := fun _ _ => None;
  int_rmul_gt := fun _ _ => None
|}.

(** The same groups in a library that accepts an int on the left of
    [*] and multiplies the element that many times. *)
Definition lenient : PairingLib := {|
  G1 := Z; G2 := Z; GT := Z;
  order := q;
  g1_generator := 1; g2_generator := 1;
  g1_neutral := 0;
  g1_mul := mul; g1_div := div; g1_pow := pow; g1_eqb := Z.eqb;
  g2_mul := mul; g2_div := div; g2_pow := pow; g2_eqb := Z.eqb;
  gt_mul := mul; gt_div := div; gt_pow := pow; gt_eqb := Z.eqb;
  e_pair := pairing;
  int_rmul_g1 := fun n a => Some (pow a n);
  int_rmul_g2 := fun n a => Some (pow a n);
  int_rmul_gt := fun n a => Some (pow a n)
|}.

Definition E1 (a : Z) : @value lib := @VG1 lib a.
Definition E2 (a : Z) : @value lib := @VG2 lib a.
Definition Bn (k : Z) : @value lib := @VBn lib k.

(** The generator hands out 2, 3, 4, ... *)
Definition counting : rng := mkRng (fun n => Z.of_nat n + 2) 0.

(** One key, used in the worked inputs: [x = 2], [y = [3; 4; 5]], and
    the attribute vector [[25; 7; 2]]. *)
Definition sk : @value lib := sk_of 2 [3; 4; 5].
Definition pk : @value lib := pk_of 2 [3; 4; 5].
Definition m : @value lib := scalars [25; 7; 2].

End Toy.

(** * Properties *)

Section CredentialFacts.

Context {lib : PairingLib}.

(** ** Sequences *)

Lemma seq_item_past_end (l : list value) (k : Z) :
  Z.of_nat (length l) <= k -> seq_item l k = Raise IndexError.
Proof.
  intros Hk. unfold seq_item.
  destruct (k <? 0) eqn:Hneg.
  - apply Z.ltb_lt in Hneg. lia.
  - replace (Z.of_nat (length l) <=? k) with true by (symmetry; apply Z.leb_le; exact Hk).
    now rewrite orb_true_r.
Qed.

Lemma seq_item_head (v : value) (l : list value) : seq_item (v :: l) 0 = Ok v.
Proof.
  unfold seq_item.
  replace (Z.of_nat (length (v :: l)) <=? 0) with false; [reflexivity|].
  symmetry. apply Z.leb_gt. cbn [length]. lia.
Qed.

Lemma seq_from_two (a b : value) (l : list value) : seq_from (a :: b :: l) 2 = l.
Proof.
  unfold seq_from. cbn [Z.ltb Z.compare].
  replace (Z.min 2 (Z.of_nat (length (a :: b :: l)))) with 2
    by (cbn [length]; lia).
  reflexivity.
Qed.

Lemma py_getitem_past_end (msgs : value) (L : Z) :
  py_len msgs = Ok L -> py_getitem msgs (VInt (L + 2)) = Raise IndexError.
Proof.
  destruct msgs; cbn; intros H; try discriminate;
    injection H as <-; apply seq_item_past_end; lia.
Qed.

Lemma py_slice_from_float (v : value) (x : Q) :
  py_slice_from v (VFloat x) = Raise TypeError.
Proof. destruct v; reflexivity. Qed.

(** ** Which exceptions the operations raise *)

Lemma py_len_exn (v : value) (e : exn) : py_len v = Raise e -> e = TypeError.
Proof. destruct v; cbn; congruence. Qed.

Lemma seq_item_exn (l : list value) (k : Z) (e : exn) :
  seq_item l k = Raise e -> e = IndexError.
Proof.
  unfold seq_item.
  destruct (_ || _); [congruence|].
  destruct (nth_error _ _); congruence.
Qed.

Lemma py_getitem_exn (v i : value) (e : exn) :
  py_getitem v i = Raise e -> e = TypeError \/ e = IndexError.
Proof.
  destruct v; cbn; try (intros H; left; congruence);
    destruct i; try (intros H; left; congruence);
    intros H; right; eapply seq_item_exn; eauto.
Qed.

(** ** Key generation *)

Lemma random_list_drawn (n : nat) :
  forall r, random_list n r = Ok (drawn n r, skip n r).
Proof.
  induction n as [|n IH]; intros r; [reflexivity|].
  cbn [random_list drawn skip]. unfold bind at 1. unfold random at 1.
  unfold bind at 1. rewrite IH. reflexivity.
Qed.

Lemma generate_key_list (attributes : list value) (r : rng) :
  let L := length attributes in
  let x := peek r in
  let y := drawn L (advance r) in
  generate_key (VList attributes) r
  = Ok (VTuple [sk_of x y; pk_of x y], skip L (advance r)).
Proof.
  cbv zeta. unfold generate_key, bind, lift, random, ret. cbn [py_len].
  rewrite Nat2Z.id, random_list_drawn. reflexivity.
Qed.

(** ** Signing with a key of the generated shape *)

Lemma mapM_mul_scalars (m : list Z) :
  forall y,
    mapM (fun ab => py_mul (fst ab) (snd ab)) (combine (map VBn m) (map VBn y))
    = Ok (map VBn (map (fun ab => fst ab * snd ab) (combine m y))).
Proof.
  induction m as [|a m IH]; intros [|b y]; cbn; try reflexivity.
  rewrite IH. reflexivity.
Qed.

Lemma sum_from_scalars (ts : list Z) :
  forall acc, sum_from (VBn acc) (map VBn ts) = Ok (VBn (fold_left Z.add ts acc)).
Proof. induction ts as [|t ts IH]; intros acc; cbn; [reflexivity|apply IH]. Qed.

Lemma add_sum_scalars (x : Z) (ts : list Z) :
  rbind (py_sum (map VBn ts)) (py_add (VBn x)) = Ok (VBn (x + fold_left Z.add ts 0)).
Proof.
  destruct ts as [|t ts]; [reflexivity|].
  unfold py_sum. cbn [map sum_from py_add rbind].
  rewrite sum_from_scalars. reflexivity.
Qed.

Lemma sign_generated (x : Z) (y m : list Z) :
  sign (sk_of x y) (scalars m)
  = Ok (VTuple [VG1 g1_generator;
                VG1 (g1_pow g1_generator (x + weighted_sum m y))]).
Proof.
  unfold sign, sk_of, scalars, weighted_sum. cbn [app py_getitem py_slice_from].
  rewrite seq_item_head, seq_from_two. cbn [rbind py_zip py_iter].
  rewrite mapM_mul_scalars. cbn [rbind].
  pose proof (add_sum_scalars x (map (fun ab => fst ab * snd ab) (combine m y))) as H.
  destruct (py_sum _) as [s|e]; cbn [rbind] in *; [|discriminate].
  rewrite H. reflexivity.
Qed.

Lemma sign_first_component (sk msgs sig : value) :
  sign sk msgs = Ok sig -> exists s, sig = VTuple [VG1 g1_generator; s].
Proof.
  unfold sign.
  repeat match goal with
         | |- rbind ?x _ = _ -> _ => destruct x; cbn [rbind]; [|discriminate]
         end.
  intros H. injection H as <-. eexists. reflexivity.
Qed.

(** ** Verification *)

Lemma forallb_skipn {A : Type} (f : A -> bool) (n : nat) :
  forall l, forallb f l = true -> forallb f (skipn n l) = true.
Proof.
  induction n as [|n IH]; intros [|a l] H; cbn in *; try assumption.
  apply andb_true_iff in H. now apply IH.
Qed.

Lemma mapM_pow_elements (bases : list value) :
  forallb is_element bases = true ->
  forall m : list Z,
  exists powers,
    mapM (fun ab => py_pow (fst ab) (snd ab)) (combine bases (map VBn m))
    = Ok powers
    /\ forallb is_element powers = true.
Proof.
  induction bases as [|a bases IH]; intros Hb m;
    [eexists; split; reflexivity|].
  cbn [forallb] in Hb. apply andb_true_iff in Hb. destruct Hb as [Ha Hb].
  destruct m as [|k m]; [eexists; split; reflexivity|].
  destruct (IH Hb m) as [powers [Hp He]].
  destruct a; try discriminate Ha; cbn; rewrite Hp;
    eexists; (split; [reflexivity|exact He]).
Qed.

Lemma py_mul_elements (acc v : value) :
  is_element v = true ->
  is_element acc = true \/ (exists n, acc = VInt n) ->
  (exists w, py_mul acc v = Ok w /\ is_element w = true) \/
  py_mul acc v = Raise TypeError.
Proof.
  intros Hv [Hacc | [n ->]].
  - destruct v; try discriminate Hv; destruct acc; try discriminate Hacc;
      cbn; eauto.
  - destruct v; try discriminate Hv; cbn; unfold opt_elem;
      match goal with |- context [match ?o with _ => _ end] => destruct o end;
      eauto.
Qed.

(** A product of group elements, started from an int or an element,
    is an element (or the start value) unless it fails with
    [TypeError]. *)
Lemma prod_from_elements (l : list value) :
  forallb is_element l = true ->
  forall acc e,
    is_element acc = true \/ (exists n, acc = VInt n) ->
    prod_from acc l = Raise e -> e = TypeError.
Proof.
  induction l as [|v l IH]; intros Hl acc e Hacc; cbn; [discriminate|].
  cbn [forallb] in Hl. apply andb_true_iff in Hl. destruct Hl as [Hv Hl].
  destruct (py_mul_elements acc v Hv Hacc) as [[w [-> Hw]] | ->]; cbn [rbind].
  - apply (IH Hl). now left.
  - congruence.
Qed.

Lemma pk_of_elements (x : Z) (y : list Z) :
  exists l, pk_of x y = VList l /\ forallb is_element l = true.
Proof.
  eexists. split; [reflexivity|].
  cbn [app forallb is_element andb]. rewrite forallb_app.
  cbn [forallb is_element andb].
  apply andb_true_iff. split; apply forallb_forall; intros v Hv;
    apply in_map_iff in Hv; destruct Hv as [b [<- _]]; reflexivity.
Qed.

(** On a public key list of group elements, a signature pair and scalar
    messages, every power of line 94 is taken and the call ends in the
    product or at [msgs[L+2]]. *)
Lemma verify_elements_exn (pk : list value) (h s : value) (m : list Z) :
  forallb is_element pk = true ->
  type_or_index (verify (VList pk) (VTuple [h; s]) (scalars m)).
Proof.
  intros Hpk. unfold verify, scalars. cbn [py_len rbind py_getitem].
  rewrite seq_item_head. cbn [rbind].
  change (seq_item [h; s] 1) with (Ok s). cbn [rbind py_slice_from py_zip py_iter].
  unfold seq_from. cbv zeta.
  match goal with
  | |- context [skipn ?n pk] =>
      destruct (mapM_pow_elements _ (forallb_skipn is_element n pk Hpk) m)
        as [powers [Hp He]]
  end.
  rewrite Hp. cbn [rbind].
  destruct (math_prod powers) as [p|e] eqn:Hprod; cbn [rbind].
  - rewrite seq_item_past_end by lia. right. reflexivity.
  - left. f_equal.
    apply (prod_from_elements powers He (VInt 1) e); [right; eauto|exact Hprod].
Qed.

(** C3.  On every public key list of group elements, every signature
    pair [(h, s)] and every vector of scalar messages, [verify] answers
    with no boolean.  The factor [msgs[L+2]] of line 94 indexes the
    message list two places past its end ([L = len(msgs)]), so when the
    product before it can be built the call raises [IndexError], and
    when [math.prod] fails it raises [TypeError].  This covers a
    signature whose first component is the neutral element: no [False]
    comes back for it. *)
Theorem verify_never_returns (pk : list value) (h s : value) (m : list Z) :
  forallb is_element pk = true ->
  verify (VList pk) (VTuple [h; s]) (scalars m) = Raise TypeError \/
  verify (VList pk) (VTuple [h; s]) (scalars m) = Raise IndexError.
Proof. exact (verify_elements_exn pk h s m). Qed.

(** C1.  For every attribute list, every state of the generator and
    every message vector [m]: [generate_key] returns a key pair, [sign]
    returns a signature of [m] under its secret key, and [verify] on the
    public key, that signature and [m] raises instead of returning
    [True]. *)
Theorem verify_sign_raises (attributes : list value) (m : list Z) (r : rng) :
  exists sk pk r' sig,
    generate_key (VList attributes) r = Ok (VTuple [sk; pk], r') /\
    sign sk (scalars m) = Ok sig /\
    (verify pk sig (scalars m) = Raise TypeError \/
     verify pk sig (scalars m) = Raise IndexError).
Proof.
  do 4 eexists. split; [apply generate_key_list|].
  split; [apply sign_generated|].
  destruct (pk_of_elements (peek r) (drawn (length attributes) (advance r)))
    as [l [-> Hl]].
  apply verify_elements_exn. exact Hl.
Qed.

(** C4.  On a secret key [(x, X1, y_1..y_L)] and scalar messages [m],
    [sign] returns [(h, h^(x + sum m_i*y_i))] with [h] the generator of
    G1 itself: the function takes no generator state and draws nothing,
    so the first component is the same in every call. *)
Theorem sign_fixed_generator (x : Z) (y m : list Z) :
  sign (sk_of x y) (scalars m)
  = Ok (VTuple [VG1 g1_generator;
                VG1 (g1_pow g1_generator (x + weighted_sum m y))]).
Proof. apply sign_generated. Qed.

(** C10.  Two attribute lists of the same length give the same key pair
    (and leave the generator in the same state) when the generator
    starts from the same state. *)
Theorem generate_key_length_only (a1 a2 : list value) (r : rng) :
  length a1 = length a2 ->
  generate_key (VList a1) r = generate_key (VList a2) r.
Proof.
  intros Hlen. rewrite !generate_key_list, Hlen. reflexivity.
Qed.

(** ** Issuance *)

Lemma create_issue_request_exn (pk user_attributes : value) (r : rng) :
  type_or_index (create_issue_request pk user_attributes r).
Proof.
  unfold create_issue_request, bind, lift, random.
  destruct (py_len pk) as [n|e] eqn:Hn; cbn [rbind py_sub py_truediv_2 py_add].
  - destruct (py_getitem pk (VInt 0)) as [g|e] eqn:Hg; cbn [rbind].
    + rewrite py_slice_from_float. left. reflexivity.
    + apply py_getitem_exn in Hg. destruct Hg as [-> | ->]; [left|right]; reflexivity.
  - apply py_len_exn in Hn. subst. left. reflexivity.
Qed.

Lemma create_issue_request_nonempty
    (g : value) (pk : list value) (user_attributes : value) (r : rng) :
  create_issue_request (VList (g :: pk)) user_attributes r = Raise TypeError.
Proof.
  unfold create_issue_request, bind, lift, random.
  cbn [py_len rbind py_sub py_truediv_2 py_add py_getitem].
  rewrite seq_item_head. reflexivity.
Qed.

(** C6.  [create_issue_request] returns nothing, neither a pair [(C, t)]
    nor [C] alone: [L] is the float [(len(pk) - 3) / 2], and the slice
    [pk[L+3:]] of line 121 refuses a float bound, so the call raises
    [TypeError] ([IndexError] from [pk[0]] when [pk] is empty). *)
Theorem create_issue_request_raises (pk user_attributes : value) (r : rng) :
  create_issue_request pk user_attributes r = Raise TypeError \/
  create_issue_request pk user_attributes r = Raise IndexError.
Proof. exact (create_issue_request_exn pk user_attributes r). Qed.

(** C7.  [sign_issue_request] returns no blind signature: after drawing
    [u] it computes the float [L] and raises [TypeError] at the slice
    [pk[L+3:]] of line 144 (or at [len(pk)]). *)
Theorem sign_issue_request_raises
    (sk pk request issuer_attributes : value) (r : rng) :
  sign_issue_request sk pk request issuer_attributes r = Raise TypeError.
Proof.
  unfold sign_issue_request, bind, lift, random.
  destruct (py_len pk) as [n|e] eqn:Hn; cbn [rbind py_sub py_truediv_2 py_add].
  - rewrite py_slice_from_float. reflexivity.
  - apply py_len_exn in Hn. subst. reflexivity.
Qed.

(** C2.  With a generated key pair, the issuance run stops at its first
    step: [create_issue_request] raises [TypeError], so no credential is
    produced for [verify] to look at. *)
Theorem issuance_raises
    (attributes : list value) (user_attributes issuer_attributes : value) (r : rng) :
  exists sk pk r',
    generate_key (VList attributes) r = Ok (VTuple [sk; pk], r') /\
    create_issue_request pk user_attributes r' = Raise TypeError /\
    issuance sk pk user_attributes issuer_attributes r' = Raise TypeError.
Proof.
  do 3 eexists. split; [apply generate_key_list|].
  unfold issuance, bind at 1, pk_of. cbn [app].
  rewrite create_issue_request_nonempty. split; reflexivity.
Qed.

(** C5.  [obtain_credential] has no parameter for the blinding scalar of
    the request.  On a blind signature [(s1, s2)] it draws the next
    scalar of the generator and divides [s2] by [s1] raised to that
    scalar, leaving the generator one draw further. *)
Theorem obtain_credential_resamples (pk : value) (s1 s2 : G1) (r : rng) :
  obtain_credential pk (VTuple [VG1 s1; VG1 s2]) r
  = Ok (VTuple [VG1 s1; VG1 (g1_div s2 (g1_pow s1 (peek r)))], advance r).
Proof. reflexivity. Qed.

(** ** Showing *)

Lemma rerandomized_pair (h s : G1) (r t : Z) :
  rerandomized (VTuple [VG1 h; VG1 s]) r t
  = Ok (VTuple [VG1 (g1_pow h r); VG1 (g1_mul s (g1_pow (g1_pow h t) r))]).
Proof. reflexivity. Qed.

(** C8.  On a credential [(h, s)], [create_disclosure_proof] draws two
    scalars, builds the pair of line 182 and drops it: the call returns
    [None], no tuple and no proof. *)
Theorem create_disclosure_proof_returns_none
    (pk hidden_attributes message : value) (h s : G1) (r : rng) :
  create_disclosure_proof pk (VTuple [VG1 h; VG1 s]) hidden_attributes message r
  = Ok (VNone, advance (advance r)).
Proof. reflexivity. Qed.

(** C9.  [verify_disclosure_proof] looks at none of its arguments: every
    call raises [NotImplementedError]; it neither rejects nor accepts. *)
Theorem verify_disclosure_proof_unimplemented (pk disclosure_proof message : value) :
  verify_disclosure_proof pk disclosure_proof message = Raise NotImplementedError.
Proof. reflexivity. Qed.

End CredentialFacts.

(** * The module run on the toy library

    One key throughout: [x = 2], [y = [3; 4; 5]], as [generate_key]
    builds it for three attributes when the generator hands out
    2, 3, 4, 5; the attribute vector is [[25; 7; 2]]. *)

Section Worked.

Import Toy.

Example generate_key_three :
  generate_key (VList [Bn 25; Bn 7; Bn 2]) counting
  = Ok (VTuple [sk; pk], skip 4 counting).
Proof. reflexivity. Qed.

Example key_lengths :
  py_len pk = Ok 9 /\ py_len sk = Ok 5 /\
  py_getitem pk (VInt 5) = Ok (E2 2) /\ py_getitem m (VInt 5) = Raise IndexError.
Proof. repeat split; reflexivity. Qed.

Example sign_three : sign sk m = Ok (VTuple [E1 1; E1 115]).
Proof. reflexivity. Qed.

(** The library refuses [1 * element]: [math.prod] raises. *)
Example verify_three_strict : verify pk (VTuple [E1 1; E1 115]) m = Raise TypeError.
Proof. reflexivity. Qed.

(** The library accepts [1 * element]: [msgs[5]] raises. *)
Example verify_three_lenient :
  verify (lib := lenient) (pk_of 2 [3; 4; 5])
         (VTuple [@VG1 lenient 1; @VG1 lenient 115]) (scalars [25; 7; 2])
  = Raise IndexError.
Proof. reflexivity. Qed.

(** No attributes at all: the product is the int 1 and [msgs[2]] raises
    whatever the library does. *)
Example verify_empty :
  verify (pk_of 2 []) (VTuple [E1 1; E1 2]) (scalars []) = Raise IndexError.
Proof. reflexivity. Qed.

(** A signature whose first component is the neutral element *)
Example verify_neutral_lenient :
  verify (lib := lenient) (pk_of 2 [3; 4; 5])
         (VTuple [@VG1 lenient 0; @VG1 lenient 0]) (scalars [25; 7; 2])
  = Raise IndexError.
Proof. reflexivity. Qed.

(** Hidden attribute 25 at index 0 *)
Example create_issue_request_three :
  create_issue_request pk (VList [VTuple [Bn 25; VInt 0]]) counting = Raise TypeError.
Proof. reflexivity. Qed.

(** Issuer attributes 7 and 2 at indices 1 and 2, on the commitment
    [g1^82 = g1^7 * Y1_0^25] *)
Example sign_issue_request_three :
  sign_issue_request sk pk (E1 82)
    (VList [VTuple [Bn 7; VInt 1]; VTuple [Bn 2; VInt 2]]) counting
  = Raise TypeError.
Proof. reflexivity. Qed.

(** The blind signature an issuer owes for that commitment with [u = 3]
    is [(g1^3, g1^366)].  Unblinded with the request's [t = 7] it would
    be [(g1^3, g1^345)], a signature of [[25; 7; 2]]
    ([345 = 3 * 115]).  The call draws 2 instead. *)
Example obtain_credential_three :
  obtain_credential pk (VTuple [E1 3; E1 366]) counting
  = Ok (VTuple [E1 3; E1 360], advance counting)
  /\ div 366 (pow 3 7) = 345.
Proof. split; reflexivity. Qed.

(** Line 182 with [r = 2], [t = 3] on the credential [(g1^3, g1^345)]:
    the second component is [s * (h^t)^r], where [(s * h^t)^r] would be
    [g1^708]. *)
Example rerandomized_three :
  rerandomized (VTuple [E1 3; E1 345]) 2 3 = Ok (VTuple [E1 6; E1 363])
  /\ pow (mul 345 (pow 3 3)) 2 = 708.
Proof. split; reflexivity. Qed.

Example create_disclosure_proof_three :
  create_disclosure_proof pk (VTuple [E1 3; E1 345]) (VList [Bn 25]) VNone counting
  = Ok (VNone, skip 2 counting).
Proof. reflexivity. Qed.

End Worked.

(** C3 at the toy key and a signature of two neutral elements *)
Lemma verify_never_returns_witness :
  forallb is_element
    [Toy.E1 1; Toy.E1 3; Toy.E1 4; Toy.E1 5;
     Toy.E2 1; Toy.E2 2; Toy.E2 3; Toy.E2 4; Toy.E2 5] = true /\
  (verify Toy.pk (VTuple [Toy.E1 0; Toy.E1 0]) Toy.m = Raise TypeError \/
   verify Toy.pk (VTuple [Toy.E1 0; Toy.E1 0]) Toy.m = Raise IndexError).
Proof.
  split; [reflexivity|].
  apply (verify_never_returns (lib := Toy.lib)
           [Toy.E1 1; Toy.E1 3; Toy.E1 4; Toy.E1 5;
            Toy.E2 1; Toy.E2 2; Toy.E2 3; Toy.E2 4; Toy.E2 5]
           (Toy.E1 0) (Toy.E1 0) [25; 7; 2]).
  reflexivity.
Defined.

(** C10 at two attribute lists of length three *)
Lemma generate_key_length_only_witness :
  length [Toy.Bn 25; Toy.Bn 7; Toy.Bn 2] = length [Toy.Bn 1; VNone; Toy.E1 4]
  /\ generate_key (VList [Toy.Bn 25; Toy.Bn 7; Toy.Bn 2]) Toy.counting
     = generate_key (VList [Toy.Bn 1; VNone; Toy.E1 4]) Toy.counting.
Proof.
  split; [reflexivity|].
  apply (generate_key_length_only (lib := Toy.lib)). reflexivity.
Defined.

(** * Further properties of the module *)

Section KeyLayout.

Context {lib : PairingLib}.

(** ** Sequences at indices inside their range *)

Lemma seq_item_nth (l : list value) (i : nat) (v : value) :
  nth_error l i = Some v -> seq_item l (Z.of_nat i) = Ok v.
Proof.
  intros H. unfold seq_item.
  assert (Hlt : (i < length l)%nat) by (apply nth_error_Some; congruence).
  assert (Hneg : (Z.of_nat i <? 0) = false) by (apply Z.ltb_ge; lia).
  assert (Hin : (Z.of_nat (length l) <=? Z.of_nat i) = false) by (apply Z.leb_gt; lia).
  cbv zeta. rewrite Hneg. cbv iota. rewrite Hneg, Hin. cbn [orb].
  rewrite Nat2Z.id, H. reflexivity.
Qed.

Lemma seq_from_nat (l : list value) (n : nat) :
  (n <= length l)%nat -> seq_from l (Z.of_nat n) = skipn n l.
Proof.
  intros H. unfold seq_from.
  assert (Hneg : (Z.of_nat n <? 0) = false) by (apply Z.ltb_ge; lia).
  cbv zeta. rewrite Hneg, Z.min_l by lia. now rewrite Nat2Z.id.
Qed.

Lemma nth_error_layout {A : Type} (a b c : A) (l1 l2 : list A) (k : nat) :
  nth_error (a :: l1 ++ b :: c :: l2) (S (length l1 + k))
  = nth_error (b :: c :: l2) k.
Proof.
  cbn [nth_error]. rewrite nth_error_app2 by lia. f_equal. lia.
Qed.

Lemma skipn_layout {A : Type} (a b c : A) (l1 l2 : list A) :
  skipn (length l1 + 3) (a :: l1 ++ b :: c :: l2) = l2.
Proof.
  replace (length l1 + 3)%nat with (S (length l1 + 2)) by lia.
  cbn [skipn]. induction l1 as [|x l1 IH]; [reflexivity|exact IH].
Qed.

Lemma skip_stream (n : nat) : forall r, stream (skip n r) = stream r.
Proof. induction n as [|n IH]; intros r; cbn; [reflexivity|now rewrite IH]. Qed.

Lemma skip_pos (n : nat) : forall r, pos (skip n r) = (pos r + n)%nat.
Proof.
  induction n as [|n IH]; intros r; cbn [skip]; [lia|].
  rewrite IH. cbn. lia.
Qed.

Lemma drawn_length (n : nat) : forall r, length (drawn n r) = n.
Proof. induction n as [|n IH]; intros r; cbn; [reflexivity|now rewrite IH]. Qed.

(** ** The two key lists *)

Lemma pk_of_item (x : Z) (y : list Z) (k : nat) :
  py_getitem (pk_of x y) (VInt (Z.of_nat (length y) + 1 + Z.of_nat k))
  = match nth_error (VG2 g2_generator :: VG2 (g2_pow g2_generator x)
                     :: map VG2 (map (fun i => g2_pow g2_generator i) y)) k with
    | Some v => Ok v
    | None => Raise IndexError
    end.
Proof.
  unfold pk_of. cbn [app py_getitem].
  set (Y1 := map VG1 (map (fun i => g1_pow g1_generator i) y)).
  set (Y2 := map VG2 (map (fun i => g2_pow g2_generator i) y)).
  assert (HY1 : length Y1 = length y) by (unfold Y1; now rewrite !length_map).
  replace (Z.of_nat (length y) + 1 + Z.of_nat k)
    with (Z.of_nat (S (length Y1 + k))) by lia.
  destruct (nth_error (_ :: _ :: Y2) k) as [v|] eqn:Hk.
  - apply seq_item_nth. now rewrite nth_error_layout.
  - apply seq_item_past_end. apply nth_error_None in Hk.
    cbn [length] in *. rewrite length_app. cbn [length]. lia.
Qed.

Lemma pk_of_tail (x : Z) (y : list Z) :
  py_slice_from (pk_of x y) (VInt (Z.of_nat (length y) + 3))
  = Ok (VList (map VG2 (map (fun i => g2_pow g2_generator i) y))).
Proof.
  unfold pk_of. cbn [app py_slice_from].
  set (Y1 := map VG1 (map (fun i => g1_pow g1_generator i) y)).
  assert (HY1 : length Y1 = length y) by (unfold Y1; now rewrite !length_map).
  replace (Z.of_nat (length y) + 3) with (Z.of_nat (length Y1 + 3)) by lia.
  rewrite seq_from_nat by (cbn [length]; rewrite length_app; cbn [length]; lia).
  now rewrite skipn_layout.
Qed.

End KeyLayout.

Section KeyFacts.

Context {lib : PairingLib}.

(** X1.  The key lists have the lengths the other functions count on:
    for [L] attributes the secret key has [L + 2] entries and the public
    key [2L + 3]. *)
Theorem generate_key_sizes (attributes : list value) (r : rng) :
  exists sk pk r',
    generate_key (VList attributes) r = Ok (VTuple [sk; pk], r') /\
    py_len sk = Ok (Z.of_nat (length attributes) + 2) /\
    py_len pk = Ok (2 * Z.of_nat (length attributes) + 3).
Proof.
  do 3 eexists. split; [apply generate_key_list|].
  unfold sk_of, pk_of. cbn [py_len app length].
  rewrite !length_app. cbn [length].
  rewrite !length_map, !drawn_length. split; f_equal; lia.
Qed.

(** X2.  [generate_key] on [L] attributes takes exactly [L + 1] scalars
    from the generator: the cursor moves on by [L + 1] and the stream is
    left as it was. *)
Theorem generate_key_draws (attributes : list value) (r : rng) :
  exists keys r',
    generate_key (VList attributes) r = Ok (keys, r') /\
    stream r' = stream r /\
    pos r' = (pos r + length attributes + 1)%nat.
Proof.
  do 2 eexists. split; [apply generate_key_list|].
  rewrite skip_stream, skip_pos. cbn. split; [reflexivity|lia].
Qed.

(** X3.  The fixed slots of a generated key pair: [sk[0]] is the first
    scalar drawn, [sk[1]] and [pk[L+2]] are the generators of G1 and G2
    raised to that same scalar, [pk[0]] is the generator of G1 and
    [pk[L+1]] the generator of G2. *)
Theorem generate_key_fixed_slots (attributes : list value) (r : rng) :
  let L := Z.of_nat (length attributes) in
  exists sk pk r',
    generate_key (VList attributes) r = Ok (VTuple [sk; pk], r') /\
    py_getitem sk (VInt 0) = Ok (VBn (peek r)) /\
    py_getitem sk (VInt 1) = Ok (VG1 (g1_pow g1_generator (peek r))) /\
    py_getitem pk (VInt 0) = Ok (VG1 g1_generator) /\
    py_getitem pk (VInt (L + 1)) = Ok (VG2 g2_generator) /\
    py_getitem pk (VInt (L + 2)) = Ok (VG2 (g2_pow g2_generator (peek r))).
Proof.
  cbv zeta. do 3 eexists. split; [apply generate_key_list|].
  set (y := drawn (length attributes) (advance r)).
  assert (Hy : length y = length attributes) by apply drawn_length.
  repeat apply conj.
  - apply seq_item_head.
  - apply (seq_item_nth _ 1). reflexivity.
  - apply seq_item_head.
  - rewrite <- Hy.
    replace (Z.of_nat (length y) + 1) with (Z.of_nat (length y) + 1 + Z.of_nat 0) by lia.
    now rewrite pk_of_item.
  - rewrite <- Hy.
    replace (Z.of_nat (length y) + 2) with (Z.of_nat (length y) + 1 + Z.of_nat 1) by lia.
    now rewrite pk_of_item.
Qed.

(** X4.  The slots of attribute [i < L] agree across the two lists:
    [sk[2+i]] is a scalar [y_i], [pk[1+i]] is the generator of G1 raised
    to [y_i] and [pk[L+3+i]] the generator of G2 raised to the same
    [y_i]. *)
Theorem generate_key_attribute_slots (attributes : list value) (r : rng) (i : nat) :
  (i < length attributes)%nat ->
  let L := Z.of_nat (length attributes) in
  exists y_i sk pk r',
    generate_key (VList attributes) r = Ok (VTuple [sk; pk], r') /\
    py_getitem sk (VInt (2 + Z.of_nat i)) = Ok (VBn y_i) /\
    py_getitem pk (VInt (1 + Z.of_nat i)) = Ok (VG1 (g1_pow g1_generator y_i)) /\
    py_getitem pk (VInt (L + 3 + Z.of_nat i)) = Ok (VG2 (g2_pow g2_generator y_i)).
Proof.
  intros Hi. cbv zeta.
  set (y := drawn (length attributes) (advance r)).
  assert (Hy : length y = length attributes) by apply drawn_length.
  assert (Hnth : nth_error y i = Some (nth i y 0))
    by (apply nth_error_nth'; lia).
  exists (nth i y 0). do 3 eexists. split; [apply generate_key_list|].
  fold y. repeat apply conj.
  - replace (2 + Z.of_nat i) with (Z.of_nat (S (S i))) by lia.
    apply seq_item_nth. unfold sk_of. cbn [app nth_error].
    now apply map_nth_error.
  - replace (1 + Z.of_nat i) with (Z.of_nat (S i)) by lia.
    apply seq_item_nth. unfold pk_of. cbn [app nth_error].
    rewrite nth_error_app1 by (rewrite !length_map; lia).
    rewrite map_map. now apply (map_nth_error (fun k => VG1 (g1_pow g1_generator k))).
  - rewrite <- Hy.
    replace (Z.of_nat (length y) + 3 + Z.of_nat i)
      with (Z.of_nat (length y) + 1 + Z.of_nat (S (S i))) by lia.
    rewrite pk_of_item. cbn [nth_error]. rewrite map_map.
    now rewrite (map_nth_error (fun k => VG2 (g2_pow g2_generator k)) _ _ Hnth).
Qed.

(** X5.  The slice [pk[L+3:]], which [verify], [create_issue_request] and
    [sign_issue_request] all take, is on a generated key the list of the
    G2 elements: the generator of G2 raised to the scalars of [sk[2:]],
    in the same order. *)
Theorem generate_key_tail_in_G2 (attributes : list value) (r : rng) :
  let L := Z.of_nat (length attributes) in
  exists y sk pk r',
    generate_key (VList attributes) r = Ok (VTuple [sk; pk], r') /\
    length y = length attributes /\
    py_slice_from sk (VInt 2) = Ok (scalars y) /\
    py_slice_from pk (VInt (L + 3))
    = Ok (VList (map (fun i => VG2 (g2_pow g2_generator i)) y)).
Proof.
  cbv zeta. exists (drawn (length attributes) (advance r)).
  do 3 eexists. split; [apply generate_key_list|].
  split; [apply drawn_length|]. split.
  - unfold sk_of. cbn [app py_slice_from]. now rewrite seq_from_two.
  - pose proof (pk_of_tail (peek r) (drawn (length attributes) (advance r))) as H.
    rewrite drawn_length in H. rewrite H, map_map. reflexivity.
Qed.

End KeyFacts.

Section SignFacts.

Context {lib : PairingLib}.

Lemma combine_surplus {A B : Type} (l1 : list A) :
  forall (l2 : list B) (extra : list A),
    length l1 = length l2 -> combine (l1 ++ extra) l2 = combine l1 l2.
Proof.
  induction l1 as [|a l1 IH]; intros [|b l2] extra Hlen;
    cbn in *; try discriminate.
  - now destruct extra.
  - f_equal. apply IH. lia.
Qed.

Lemma sum_zero_products (k : nat) :
  forall (y : list Z) (acc : Z),
    fold_left Z.add (map (fun ab => fst ab * snd ab) (combine (repeat 0 k) y)) acc
    = acc.
Proof.
  induction k as [|k IH]; intros [|b y] acc; cbn; try reflexivity.
  rewrite IH. lia.
Qed.

Lemma sum_zero_padded (k : nat) (m : list Z) :
  forall (y : list Z) (acc : Z),
    fold_left Z.add
      (map (fun ab => fst ab * snd ab) (combine (m ++ repeat 0 k) y)) acc
    = fold_left Z.add (map (fun ab => fst ab * snd ab) (combine m y)) acc.
Proof.
  induction m as [|a m IH]; intros y acc.
  - cbn [app combine map fold_left]. apply sum_zero_products.
  - destruct y as [|b y]; cbn; [reflexivity|apply IH].
Qed.

(** X6.  [sign] checks no lengths: whatever follows the first [L]
    messages, scalars or not, is dropped by [zip] and the signature is
    that of the first [L] messages alone. *)
Theorem sign_ignores_surplus (x : Z) (y m : list Z) (extra : list value) :
  length m = length y ->
  sign (sk_of x y) (VList (map VBn m ++ extra)) = sign (sk_of x y) (scalars m).
Proof.
  intros Hlen. unfold sign, sk_of, scalars.
  cbn [app py_getitem py_slice_from].
  rewrite seq_item_head, seq_from_two. cbn [rbind py_zip py_iter].
  rewrite combine_surplus by (now rewrite !length_map). reflexivity.
Qed.

(** X7.  A message vector shorter than the key is signed as if the
    missing messages were 0: appending zeros to the vector does not
    change the signature. *)
Theorem sign_pads_with_zero (x : Z) (y m : list Z) (k : nat) :
  sign (sk_of x y) (scalars (m ++ repeat 0 k)) = sign (sk_of x y) (scalars m).
Proof.
  rewrite !sign_generated. unfold weighted_sum.
  now rewrite sum_zero_padded.
Qed.

(** X8.  [sign] never reads [sk[1]]: two secret key lists that differ
    only there give the same outcome on every message argument. *)
Theorem sign_never_reads_X1 (x v w : value) (ys : list value) (msgs : value) :
  sign (VList (x :: v :: ys)) msgs = sign (VList (x :: w :: ys)) msgs.
Proof.
  unfold sign. cbn [py_getitem py_slice_from].
  now rewrite !seq_item_head, !seq_from_two.
Qed.

(** X9.  Whatever the arguments, a signature that [sign] returns is the
    pair of the generator of G1 and a power of that generator. *)
Theorem sign_returns_generator_power (sk msgs sig : value) :
  sign sk msgs = Ok sig ->
  exists e, sig = VTuple [VG1 g1_generator; VG1 (g1_pow g1_generator e)].
Proof.
  unfold sign.
  destruct (py_getitem sk (VInt 0)) as [x|]; cbn [rbind]; [|discriminate].
  destruct (py_slice_from sk (VInt 2)) as [ys|]; cbn [rbind]; [|discriminate].
  destruct (py_zip msgs ys) as [z|]; cbn [rbind]; [|discriminate].
  destruct (mapM _ z) as [terms|]; cbn [rbind]; [|discriminate].
  destruct (py_sum terms) as [s|]; cbn [rbind]; [|discriminate].
  destruct (py_add x s) as [e|]; cbn [rbind]; [|discriminate].
  destruct e; cbn; try discriminate;
    intros H; injection H as <-; eexists; reflexivity.
Qed.

End SignFacts.

Section VerifyFacts.

Context {lib : PairingLib}.

Lemma seq_item_second (a b : value) (l : list value) :
  seq_item (a :: b :: l) 1 = Ok b.
Proof. exact (seq_item_nth (a :: b :: l) 1 b eq_refl). Qed.

Lemma mapM_pow_G2 (a : list G2) :
  forall m : list Z,
    mapM (fun ab => py_pow (fst ab) (snd ab)) (combine (map VG2 a) (map VBn m))
    = Ok (map VG2 (map (fun ab => g2_pow (fst ab) (snd ab)) (combine a m))).
Proof.
  induction a as [|b a IH]; intros [|k m]; cbn; try reflexivity.
  rewrite IH. reflexivity.
Qed.

Lemma prod_from_G2 (l : list G2) :
  forall acc : G2, exists p, prod_from (VG2 acc) (map VG2 l) = Ok (VG2 p).
Proof.
  induction l as [|b l IH]; intros acc; cbn; [eexists; reflexivity|apply IH].
Qed.

(** X10.  With no messages at all the product of line 94 is the int 1
    and [msgs[2]] raises: [verify] ends in [IndexError] for every public
    key list and every signature of two components, whatever the
    library does. *)
Theorem verify_no_messages (pk rest : list value) (h s : value) :
  verify (VList pk) (VTuple (h :: s :: rest)) (VList []) = Raise IndexError.
Proof.
  unfold verify. cbn [py_len length Z.of_nat rbind py_getitem].
  rewrite seq_item_head. cbn [rbind].
  rewrite seq_item_second.
  cbn [rbind py_slice_from py_zip py_iter].
  rewrite combine_nil. reflexivity.
Qed.

(** X11.  Which exception [verify] ends in on a generated key and [L]
    scalar messages, for any two-component signature: with no attributes
    [IndexError]; otherwise [TypeError] when the library refuses the
    first step [1 * Y2_1^{m_1}] of [math.prod], and [IndexError] (from
    [msgs[L+2]]) when it accepts it. *)
Theorem verify_generated_exception (x : Z) (y m : list Z) (h s : value) :
  length m = length y ->
  verify (pk_of x y) (VTuple [h; s]) (scalars m)
  = Raise match y, m with
          | y_1 :: _, m_1 :: _ =>
              match int_rmul_g2 1 (g2_pow (g2_pow g2_generator y_1) m_1) with
              | Some _ => IndexError
              | None => TypeError
              end
          | _, _ => IndexError
          end.
Proof.
  intros Hlen. unfold verify, scalars.
  cbn [py_len rbind]. rewrite length_map, Hlen.
  cbn [py_getitem]. rewrite seq_item_head. cbn [rbind].
  rewrite seq_item_second. cbn [rbind].
  rewrite pk_of_tail. cbn [rbind py_zip py_iter].
  rewrite mapM_pow_G2. cbn [rbind].
  assert (Hpast : seq_item (map VBn m) (Z.of_nat (length y) + 2) = Raise IndexError)
    by (apply seq_item_past_end; rewrite length_map; lia).
  destruct y as [|y_1 y], m as [|m_1 m]; cbn in Hlen; try discriminate.
  - cbn. reflexivity.
  - cbn [map combine fst snd math_prod prod_from py_mul opt_elem].
    destruct (int_rmul_g2 1 _) as [b|]; cbn [opt_elem rbind]; [|reflexivity].
    cbn [map] in Hpast.
    match goal with
    | |- context [prod_from (VG2 b) (map VG2 ?l)] =>
        destruct (prod_from_G2 l b) as [p Hp]; rewrite Hp
    end.
    cbn [rbind]. rewrite Hpast. reflexivity.
Qed.

End VerifyFacts.

Section ProtocolFacts.

Context {lib : PairingLib}.

(** X12.  Which exception [create_issue_request] ends in on a public key
    list: [IndexError] (from [pk[0]]) for the empty list, [TypeError]
    (from the float bound of [pk[L+3:]]) for every other, whatever the
    attribute map and the state of the generator. *)
Theorem create_issue_request_exception
    (pk : list value) (user_attributes : value) (r : rng) :
  create_issue_request (VList pk) user_attributes r
  = Raise match pk with
          | [] => IndexError
          | _ :: _ => TypeError
          end.
Proof.
  destruct pk as [|g pk]; [reflexivity|].
  unfold create_issue_request, bind, lift, random.
  cbn [py_len rbind py_sub py_truediv_2 py_add py_getitem].
  rewrite seq_item_head. reflexivity.
Qed.

(** X13.  The issuance run returns no credential on any arguments, well
    formed or not: it ends in [TypeError] or [IndexError]. *)
Theorem issuance_never_returns
    (sk pk user_attributes issuer_attributes : value) (r : rng) :
  issuance sk pk user_attributes issuer_attributes r = Raise TypeError \/
  issuance sk pk user_attributes issuer_attributes r = Raise IndexError.
Proof.
  destruct (create_issue_request_exn pk user_attributes r) as [H | H];
    [left|right]; unfold issuance, bind; now rewrite H.
Qed.

(** X14.  Whenever [obtain_credential] returns, it has drawn exactly one
    scalar and the first component of the credential is the first
    component of the response, unchanged. *)
Theorem obtain_credential_keeps_s1 (pk response v : value) (r r' : rng) :
  obtain_credential pk response r = Ok (v, r') ->
  r' = advance r /\
  exists s1 s2', py_getitem response (VInt 0) = Ok s1 /\ v = VTuple [s1; s2'].
Proof.
  unfold obtain_credential, bind, lift, random.
  destruct (py_getitem response (VInt 0)) as [s1|]; cbn [rbind]; [|discriminate].
  destruct (py_getitem response (VInt 1)) as [s2|]; cbn [rbind]; [|discriminate].
  destruct (py_div_method s2) as [div|]; cbn [rbind]; [|discriminate].
  destruct (py_pow s1 _) as [p|]; cbn [rbind]; [|discriminate].
  destruct (div p) as [q|]; cbn [rbind]; [|discriminate].
  intros H. injection H as <- <-. split; [reflexivity|]. eauto.
Qed.

(** X15.  A response with fewer than two components makes
    [obtain_credential] raise [IndexError]. *)
Theorem obtain_credential_short_response (pk : value) (l : list value) (r : rng) :
  (length l < 2)%nat ->
  obtain_credential pk (VTuple l) r = Raise IndexError.
Proof.
  intros Hlen. destruct l as [|a [|b l]]; cbn in Hlen; try lia.
  - reflexivity.
  - unfold obtain_credential, bind, lift, random. cbn [py_getitem].
    rewrite seq_item_head. cbn [rbind].
    rewrite seq_item_past_end by (cbn; lia). reflexivity.
Qed.

(** X16.  Whenever [create_disclosure_proof] returns, on any arguments,
    it returns [None] and has drawn exactly two scalars. *)
Theorem create_disclosure_proof_only_none
    (pk credential hidden_attributes message v : value) (r r' : rng) :
  create_disclosure_proof pk credential hidden_attributes message r = Ok (v, r') ->
  v = VNone /\ r' = advance (advance r).
Proof.
  unfold create_disclosure_proof, bind, lift, random.
  destruct (rerandomized credential _ _); cbn [rbind]; [|discriminate].
  intros H. injection H as <- <-. split; reflexivity.
Qed.

End ProtocolFacts.

(** ** The properties with a precondition, on the toy library *)

Lemma generate_key_attribute_slots_witness :
  (1 < length [Toy.Bn 25; Toy.Bn 7; Toy.Bn 2])%nat /\
  exists y_i sk pk r',
    generate_key (VList [Toy.Bn 25; Toy.Bn 7; Toy.Bn 2]) Toy.counting
    = Ok (VTuple [sk; pk], r') /\
    py_getitem sk (VInt (2 + Z.of_nat 1)) = Ok (VBn y_i) /\
    py_getitem pk (VInt (1 + Z.of_nat 1)) = Ok (VG1 (g1_pow g1_generator y_i)) /\
    py_getitem pk (VInt (Z.of_nat (length [Toy.Bn 25; Toy.Bn 7; Toy.Bn 2]) + 3 + Z.of_nat 1))
    = Ok (VG2 (g2_pow g2_generator y_i)).
Proof.
  split; [cbn; lia|].
  apply (generate_key_attribute_slots (lib := Toy.lib)
           [Toy.Bn 25; Toy.Bn 7; Toy.Bn 2] Toy.counting 1).
  cbn; lia.
Defined.

Lemma sign_ignores_surplus_witness :
  length [25; 7; 2] = length [3; 4; 5] /\
  sign Toy.sk (VList (map VBn [25; 7; 2] ++ [VNone; Toy.E1 9]))
  = sign Toy.sk (scalars [25; 7; 2]).
Proof.
  split; [reflexivity|].
  apply (sign_ignores_surplus (lib := Toy.lib) 2 [3; 4; 5] [25; 7; 2]).
  reflexivity.
Defined.

Lemma sign_returns_generator_power_witness :
  sign Toy.sk Toy.m = Ok (VTuple [Toy.E1 1; Toy.E1 115]) /\
  exists e, VTuple [Toy.E1 1; Toy.E1 115]
            = VTuple [VG1 g1_generator; VG1 (g1_pow g1_generator e)].
Proof.
  split; [reflexivity|].
  apply (sign_returns_generator_power (lib := Toy.lib) Toy.sk Toy.m).
  reflexivity.
Defined.

Lemma verify_generated_exception_witness :
  length [25; 7; 2] = length [3; 4; 5] /\
  verify Toy.pk (VTuple [Toy.E1 1; Toy.E1 115]) Toy.m = Raise TypeError.
Proof.
  split; [reflexivity|].
  apply (verify_generated_exception (lib := Toy.lib) 2 [3; 4; 5] [25; 7; 2]).
  reflexivity.
Defined.

Lemma obtain_credential_keeps_s1_witness :
  obtain_credential Toy.pk (VTuple [Toy.E1 3; Toy.E1 366]) Toy.counting
  = Ok (VTuple [Toy.E1 3; Toy.E1 360], advance Toy.counting) /\
  advance Toy.counting = advance Toy.counting /\
  exists s1 s2',
    py_getitem (VTuple [Toy.E1 3; Toy.E1 366]) (VInt 0) = Ok s1 /\
    VTuple [Toy.E1 3; Toy.E1 360] = VTuple [s1; s2'].
Proof.
  split; [reflexivity|].
  apply (obtain_credential_keeps_s1 (lib := Toy.lib) Toy.pk
           (VTuple [Toy.E1 3; Toy.E1 366]) _ Toy.counting).
  reflexivity.
Defined.

Lemma obtain_credential_short_response_witness :
  (length [Toy.E1 3] < 2)%nat /\
  obtain_credential Toy.pk (VTuple [Toy.E1 3]) Toy.counting = Raise IndexError.
Proof.
  split; [cbn; lia|].
  apply (obtain_credential_short_response (lib := Toy.lib)). cbn; lia.
Defined.

Lemma create_disclosure_proof_only_none_witness :
  create_disclosure_proof Toy.pk (VTuple [Toy.E1 3; Toy.E1 345])
    (VList [Toy.Bn 25]) VNone Toy.counting
  = Ok (VNone, advance (advance Toy.counting)) /\
  VNone = @VNone Toy.lib /\
  advance (advance Toy.counting) = advance (advance Toy.counting).
Proof.
  split; [reflexivity|].
  apply (create_disclosure_proof_only_none (lib := Toy.lib) Toy.pk
           (VTuple [Toy.E1 3; Toy.E1 345]) (VList [Toy.Bn 25]) VNone _ Toy.counting).
  reflexivity.
Defined.
